(** * Invoice serializers: validation and nested persistence

    A shallow embedding of [invoice_project/invoices/serializers.py]:
    the two serializer classes [InvoiceDetailSerializer] and
    [InvoiceSerializer], the Python values they handle, and the two
    tables of the object-relational mapper they write to. *)

From Stdlib Require Import ZArith List String Ascii Bool Lia QArith Qpower.
Import ListNotations.

Local Open Scope string_scope.
Local Open Scope Z_scope.
Local Open Scope list_scope.

(** ** Python text

    A [str] is a sequence of code points; a character of [string] stands
    for the code point of the same number (0..255). *)

Module Str.

(** [str.isspace] on one character, for the code points below 256:
    TAB, LF, VT, FF, CR, the separators FS, GS, RS, US, the space,
    NEL (133) and the no-break space (160). *)
Definition isspace (c : ascii) : bool :=
  let n := nat_of_ascii c in
  ((9 <=? n) && (n <=? 13) || (28 <=? n) && (n <=? 32)
   || (n =? 133) || (n =? 160))%nat.

Definition is_empty (s : string) : bool :=
  match s with EmptyString => true | String _ _ => false end.

(** [s.lstrip()] *)
Fixpoint lstrip (s : string) : string :=
  match s with
  | EmptyString => EmptyString
  | String c r => if isspace c then lstrip r else s
  end.

(** [s.rstrip()] *)
Fixpoint rstrip (s : string) : string :=
  match s with
  | EmptyString => EmptyString
  | String c r =>
      let r' := rstrip r in
      if is_empty r' && isspace c then EmptyString else String c r'
  end.

(** [s.strip()]: leading and trailing whitespace removed. *)
Definition strip (s : string) : string := rstrip (lstrip s).

(** Every character of [s] is whitespace (true of the empty string). *)
Fixpoint all_space (s : string) : bool :=
  match s with
  | EmptyString => true
  | String c r => isspace c && all_space r
  end.

End Str.

(** ** Python decimals

    A finite [decimal.Decimal] is a signed coefficient and an exponent:
    [Decimal('2.50')] is coefficient 250, exponent -2.  Arithmetic
    rounds its result to the precision of the default context, 28
    significant digits, half to even.  The exponent limits of the
    context (999999 either way) are out of reach of a stored price and
    are not part of the model. *)

Module Decimal.

Record t : Type := mk { coef : Z; exp : Z }.







(** [d <= 0], the comparison with the [int] zero. *)
Definition le_zero (d : t) : bool := coef d <=? 0.

(** The number a decimal stands for. *)
Definition to_Q (d : t) : Q := inject_Z (coef d) * Qpower (inject_Z 10) (exp d).


End Decimal.

(** ** Exceptions and results *)

Inductive exn : Type :=
| ValidationError (msg : string)
| AttributeError (attr : string)
| KeyError (key : string)
| TypeError.

Inductive outcome (A : Type) : Type :=
| Return (a : A)
| Raise (e : exn).
Arguments Return {A} a.
Arguments Raise {A} e.

(** ** Values and rows *)

(** One submitted line item, the mapping with the keys [description],
    [quantity] and [unit_price] that [InvoiceDetailSerializer] has
    validated. *)
Record detail_data : Type := mk_detail_data
  { dd_description : string; dd_quantity : Z; dd_unit_price : Decimal.t }.

(** The values a key of the submitted mapping can hold: [None], a
    [str], a [datetime.date], or the list of line items. *)
Inductive value : Type :=
| VNone
| VStr (s : string)
| VDate (year month day : Z)
| VList (items : list detail_data).

(** Modelled from the spec: the model [InvoiceDetail] of [models.py]
    (not among the sources), a line item with an identifier assigned by
    storage, its parent invoice, a description, an integer quantity and
    a decimal unit price; the line total is no column of it. *)
Record InvoiceDetail : Type := mk_InvoiceDetail
  { detail_id : Z;
    detail_invoice : Z;
    description : string;
    quantity : Z;
    unit_price : Decimal.t }.

(** Modelled from the spec: the model [Invoice] of [models.py] (not
    among the sources), an identifier, an invoice number, a customer
    name and a date. *)
Record Invoice : Type := mk_Invoice
  { invoice_id : Z;
    invoice_number : value;
    customer_name : value;
    date : value }.

(** ** InvoiceDetailSerializer *)

Module InvoiceDetailSerializer.


Definition validate_quantity (value : Z) : outcome Z :=
  if value <=? 0
  then Raise (ValidationError "Quantity must be a positive integer.")
  else Return value.

Definition validate_unit_price (value : Decimal.t) : outcome Decimal.t :=
  if Decimal.le_zero value
  then Raise (ValidationError "Unit price must be a positive value.")
  else Return value.

Definition validate_description (value : string) : outcome string :=
  if Str.is_empty (Str.strip value)
  then Raise (ValidationError "Description cannot be empty or whitespace.")
  else Return value.



End InvoiceDetailSerializer.

(** ** Storage: the two tables behind [Invoice.objects] and
    [InvoiceDetail.objects]

    A table is the list of its rows in insertion order.  The journal
    records the statements sent to storage, oldest first. *)

Inductive db_op : Type :=
| InsertInvoice (pk : Z)
| UpdateInvoice (pk : Z)
| DeleteInvoice (pk : Z)
| InsertDetail (pk invoice : Z)
| DeleteDetails (invoice : Z).

Record Store : Type := mk_Store
  { invoices : list Invoice;
    details : list InvoiceDetail;
    next_invoice_id : Z;
    next_detail_id : Z;
    journal : list db_op }.

(** Code that reads and writes storage and may raise: what was written
    before an exception stays written. *)
Definition M (A : Type) : Type := Store -> outcome A * Store.

Definition ret {A} (a : A) : M A := fun s => (Return a, s).

Definition raise {A} (e : exn) : M A := fun s => (Raise e, s).

Definition bind {A B} (m : M A) (k : A -> M B) : M B :=
  fun s =>
    match m s with
    | (Return a, s') => k a s'
    | (Raise e, s') => (Raise e, s')
    end.

Definition lift {A} (o : outcome A) : M A := fun s => (o, s).

Notation "x <- m ;; k" := (bind m (fun x => k))
  (at level 61, m at next level, right associativity).
Notation "m ;;; k" := (bind m (fun _ => k))
  (at level 61, right associativity).

Fixpoint for_each {A} (l : list A) (body : A -> M unit) : M unit :=
  match l with
  | [] => ret tt
  | x :: r => body x ;;; for_each r body
  end.

Definition decimal_eqb (a b : Decimal.t) : bool :=
  (Decimal.coef a =? Decimal.coef b) && (Decimal.exp a =? Decimal.exp b).

Definition detail_data_eqb (a b : detail_data) : bool :=
  String.eqb (dd_description a) (dd_description b)
  && (dd_quantity a =? dd_quantity b)
  && decimal_eqb (dd_unit_price a) (dd_unit_price b).

Fixpoint list_eqb {A} (eqb : A -> A -> bool) (l m : list A) : bool :=
  match l, m with
  | [], [] => true
  | x :: l', y :: m' => eqb x y && list_eqb eqb l' m'
  | _, _ => false
  end.

(** Equality of two field values, as the lookup [filter(field=v)]
    compares them ([None] matches the rows whose field is null). *)
Definition value_eqb (a b : value) : bool :=
  match a, b with
  | VNone, VNone => true
  | VStr s, VStr t => String.eqb s t
  | VDate y m d, VDate y' m' d' => (y =? y') && (m =? m') && (d =? d')
  | VList l, VList l' => list_eqb detail_data_eqb l l'
  | _, _ => false
  end.

(** [bool(v)]: [None], the empty string and the empty list are false. *)
Definition truthy (v : value) : bool :=
  match v with
  | VNone => false
  | VStr s => negb (Str.is_empty s)
  | VDate _ _ _ => true
  | VList l => match l with [] => false | _ :: _ => true end
  end.

(** [v.strip()]: only a [str] has the method. *)
Definition strip (v : value) : outcome string :=
  match v with
  | VStr s => Return (Str.strip s)
  | _ => Raise (AttributeError "strip")
  end.

(** The line items owned by the invoice with identifier [pk]. *)
Definition belongs (pk : Z) (d : InvoiceDetail) : bool :=
  detail_invoice d =? pk.

(** [Invoice.objects.filter(invoice_number=n).exists()] *)
Definition invoice_number_exists (n : value) : M bool := fun s =>
  (Return (existsb (fun i => value_eqb (invoice_number i) n) (invoices s)), s).

(** [instance.save()]: the row with the instance's identifier is
    overwritten; an instance with no row yet is inserted. *)
Definition save (instance : Invoice) : M unit := fun s =>
  let same i := invoice_id i =? invoice_id instance in
  if existsb same (invoices s)
  then (Return tt,
        mk_Store (map (fun i => if same i then instance else i) (invoices s))
          (details s) (next_invoice_id s) (next_detail_id s)
          (journal s ++ [UpdateInvoice (invoice_id instance)]))
  else (Return tt,
        mk_Store (invoices s ++ [instance])
          (details s) (next_invoice_id s) (next_detail_id s)
          (journal s ++ [InsertInvoice (invoice_id instance)])).

(** [instance.details.all().delete()] *)
Definition details_all_delete (instance : Invoice) : M unit := fun s =>
  (Return tt,
   mk_Store (invoices s)
     (filter (fun d => negb (belongs (invoice_id instance) d)) (details s))
     (next_invoice_id s) (next_detail_id s)
     (journal s ++ [DeleteDetails (invoice_id instance)])).

(** [instance.delete()] *)
Definition instance_delete (instance : Invoice) : M unit := fun s =>
  (Return tt,
   mk_Store
     (filter (fun i => negb (invoice_id i =? invoice_id instance)) (invoices s))
     (details s) (next_invoice_id s) (next_detail_id s)
     (journal s ++ [DeleteInvoice (invoice_id instance)])).

(** [InvoiceDetail.objects.create(invoice=invoice, **detail_data)]: a
    new row under the next free identifier. *)
Definition InvoiceDetail_objects_create
    (invoice : Invoice) (detail_data : detail_data) : M InvoiceDetail :=
  fun s =>
    let row := mk_InvoiceDetail (next_detail_id s) (invoice_id invoice)
                 (dd_description detail_data) (dd_quantity detail_data)
                 (dd_unit_price detail_data) in
    (Return row,
     mk_Store (invoices s) (details s ++ [row])
       (next_invoice_id s) (next_detail_id s + 1)
       (journal s ++ [InsertDetail (detail_id row) (invoice_id invoice)])).

(** ** The submitted mapping

    [data] and [validated_data] are mappings whose keys are among the
    serializer's writable fields; a key is absent ([None] here) or
    holds a value (which can be Python's [None], [VNone]). *)
Record dict : Type := mk_dict
  { d_invoice_number : option value;
    d_customer_name : option value;
    d_date : option value;
    d_details : option value }.

(** [data.get(key)] *)
Definition get (entry : option value) : value :=
  match entry with Some v => v | None => VNone end.

(** [data.get(key, default)] *)
Definition get_or (entry : option value) (default : value) : value :=
  match entry with Some v => v | None => default end.

(** [validated_data.pop('details')]: the value and the mapping without
    the key. *)
Definition pop_details (d : dict) : outcome (value * dict) :=
  match d_details d with
  | Some v =>
      Return (v, mk_dict (d_invoice_number d) (d_customer_name d) (d_date d) None)
  | None => Raise (KeyError "details")
  end.

(** ** InvoiceSerializer *)

Module InvoiceSerializer.

Definition _validate_details (details : value) : M unit :=
  if negb (truthy details)
  then raise (ValidationError "Invoice must have at least one detail item.")
  else ret tt.

Definition _validate_invoice_number (invoice_number : value) : M unit :=
  found <- invoice_number_exists invoice_number ;;
  if found
  then raise (ValidationError "Invoice number must be unique.")
  else ret tt.

Definition _validate_customer_name (customer_name : value) : M unit :=
  stripped <- lift (strip customer_name) ;;
  if Str.is_empty stripped
  then raise (ValidationError "Customer name cannot be empty.")
  else ret tt.

Definition _validate_date (date : value) : M unit :=
  if negb (truthy date)
  then raise (ValidationError "Date cannot be empty.")
  else ret tt.

Definition validate (data : dict) : M dict :=
  _validate_details (get (d_details data)) ;;;
  _validate_invoice_number (get (d_invoice_number data)) ;;;
  _validate_customer_name (get (d_customer_name data)) ;;;
  _validate_date (get (d_date data)) ;;;
  ret data.

(** The loop of [_create_invoice_details]: a list is walked in order;
    an empty string has nothing to walk; any other value is either not
    iterable or yields elements that are no mappings. *)
Definition _create_invoice_details
    (invoice : Invoice) (details_data : value) : M unit :=
  match details_data with
  | VList l =>
      for_each l (fun detail_data =>
        InvoiceDetail_objects_create invoice detail_data ;;; ret tt)
  | VStr EmptyString => ret tt
  | _ => raise TypeError
  end.

Section Model.

(** The instance [Invoice()] that the model of [models.py] builds when
    no field is given: the defaults of its columns. *)
Variable Invoice_defaults : Invoice.

(** [Invoice.objects.create] on the unpacked mapping: a new row under the
    next free identifier; a column the mapping does not name keeps the
    model's default. *)
Definition Invoice_objects_create (validated_data : dict) : M Invoice :=
  fun s =>
    let row :=
      mk_Invoice (next_invoice_id s)
        (get_or (d_invoice_number validated_data) (invoice_number Invoice_defaults))
        (get_or (d_customer_name validated_data) (customer_name Invoice_defaults))
        (get_or (d_date validated_data) (date Invoice_defaults)) in
    (Return row,
     mk_Store (invoices s ++ [row]) (details s)
       (next_invoice_id s + 1) (next_detail_id s)
       (journal s ++ [InsertInvoice (invoice_id row)])).

Definition create (validated_data : dict) : M Invoice :=
  popped <- lift (pop_details validated_data) ;;
  let '(details_data, validated_data) := popped in
  invoice <- Invoice_objects_create validated_data ;;
  _create_invoice_details invoice details_data ;;;
  ret invoice.

End Model.

Definition update (instance : Invoice) (validated_data : dict) : M Invoice :=
  popped <- lift (pop_details validated_data) ;;
  let '(details_data, validated_data) := popped in
  let instance :=
    mk_Invoice (invoice_id instance)
      (get_or (d_invoice_number validated_data) (invoice_number instance))
      (customer_name instance) (date instance) in
  let instance :=
    mk_Invoice (invoice_id instance) (invoice_number instance)
      (get_or (d_customer_name validated_data) (customer_name instance))
      (date instance) in
  let instance :=
    mk_Invoice (invoice_id instance) (invoice_number instance)
      (customer_name instance)
      (get_or (d_date validated_data) (date instance)) in
  save instance ;;;
  details_all_delete instance ;;;
  _create_invoice_details instance details_data ;;;
  ret instance.

(** The one-key mapping that [delete] returns. *)
Definition confirmation : list (string * string) :=
  [("message", "Invoice and its details deleted successfully.")].

Definition delete (instance : Invoice) : M (list (string * string)) :=
  details_all_delete instance ;;;
  instance_delete instance ;;;
  ret confirmation.

End InvoiceSerializer.

(** ** Notions the statements use *)

(** The rows that creating the items [l] for invoice [pk] appends, the
    first under identifier [n]. *)
Fixpoint new_rows (n pk : Z) (l : list detail_data) : list InvoiceDetail :=
  match l with
  | [] => []
  | d :: r =>
      mk_InvoiceDetail n pk (dd_description d) (dd_quantity d) (dd_unit_price d)
      :: new_rows (n + 1) pk r
  end.

(** The submitted item a row was made from. *)
Definition item_of (d : InvoiceDetail) : detail_data :=
  mk_detail_data (description d) (quantity d) (unit_price d).

(** Identifiers in use lie below the next free ones, and a line item's
    parent is an identifier already given out. *)
Definition store_ok (s : Store) : bool :=
  forallb (fun i => invoice_id i <? next_invoice_id s) (invoices s)
  && forallb (fun d => (detail_id d <? next_detail_id s)
                       && (detail_invoice d <? next_invoice_id s)) (details s).

(** Some stored invoice has the number [n]. *)
Definition number_taken (n : value) (s : Store) : Prop :=
  exists i, In i (invoices s) /\ invoice_number i = n.

(** The insertions that creating the rows [rows] of invoice [pk] sends
    to storage. *)
Definition insertions (pk : Z) (rows : list InvoiceDetail) : list db_op :=
  map (fun r => InsertDetail (detail_id r) pk) rows.

(** The header after [update] has assigned the three fields. *)
Definition updated (instance : Invoice) (validated_data : dict) : Invoice :=
  mk_Invoice (invoice_id instance)
    (get_or (d_invoice_number validated_data) (invoice_number instance))
    (get_or (d_customer_name validated_data) (customer_name instance))
    (get_or (d_date validated_data) (date instance)).

(** The header that [create] stores under identifier [pk]. *)
Definition created (defaults : Invoice) (pk : Z) (validated_data : dict) : Invoice :=
  mk_Invoice pk
    (get_or (d_invoice_number validated_data) (invoice_number defaults))
    (get_or (d_customer_name validated_data) (customer_name defaults))
    (get_or (d_date validated_data) (date defaults)).

(** ** Sample data *)

Module Sample.

Definition widget : detail_data := mk_detail_data "Widget" 2 (Decimal.mk 500 (-2)).
Definition gadget : detail_data := mk_detail_data "Gadget" 1 (Decimal.mk 999 (-2)).

(** The columns of [Invoice()] when text defaults to the empty string
    and a date to [None]. *)
Definition defaults : Invoice := mk_Invoice 0 (VStr "") (VStr "") VNone.

Definition empty : Store := mk_Store [] [] 1 1 [].

(** Invoice INV-001 of Acme with three line items. *)
Definition acme : Invoice :=
  mk_Invoice 1 (VStr "INV-001") (VStr "Acme") (VDate 2024 1 1).

Definition acme_data : dict :=
  mk_dict (Some (VStr "INV-001")) (Some (VStr "Acme")) (Some (VDate 2024 1 1))
    (Some (VList [widget; gadget; widget])).

(** Storage once [acme_data] has been created in the empty store. *)
Definition stored : Store :=
  mk_Store [acme]
    [mk_InvoiceDetail 1 1 "Widget" 2 (Decimal.mk 500 (-2));
     mk_InvoiceDetail 2 1 "Gadget" 1 (Decimal.mk 999 (-2));
     mk_InvoiceDetail 3 1 "Widget" 2 (Decimal.mk 500 (-2))]
    2 4
    [InsertInvoice 1; InsertDetail 1 1; InsertDetail 2 1; InsertDetail 3 1].

(** A change of customer that names one line item and no other header
    field. *)
Definition rename : dict :=
  mk_dict None (Some (VStr "Bob")) None (Some (VList [widget])).

(** The number of a stored invoice, submitted without line items. *)
Definition no_items : dict :=
  mk_dict (Some (VStr "INV-001")) (Some (VStr "Acme")) (Some (VDate 2024 1 1))
    (Some (VList [])).

(** A new number with the customer name left out. *)
Definition no_name : dict :=
  mk_dict (Some (VStr "INV-002")) None (Some (VDate 2024 1 1))
    (Some (VList [widget])).


End Sample.

(** ** Consistency of storage *)

(** No number occurs twice in [l]. *)
Fixpoint distinct (l : list Z) : bool :=
  match l with
  | [] => true
  | x :: r => negb (existsb (Z.eqb x) r) && distinct r
  end.

(** No two rows of a table share an identifier. *)
Definition keys_unique (s : Store) : bool :=
  distinct (map invoice_id (invoices s)) && distinct (map detail_id (details s)).

(** Every line item has its invoice in storage. *)
Definition no_orphans (s : Store) : bool :=
  forallb (fun d => existsb (fun i => invoice_id i =? detail_invoice d) (invoices s))
    (details s).

(** Storage as the operations of the serializer keep it. *)
Definition consistent (s : Store) : bool :=
  store_ok s && keys_unique s && no_orphans s.

(** The invoice with identifier [pk] has at least one line item. *)
Definition has_items (pk : Z) (s : Store) : bool :=
  existsb (belongs pk) (details s).

(** No two stored invoices with different identifiers share an invoice
    number. *)
Definition numbers_unique (s : Store) : bool :=
  forallb (fun i =>
    forallb (fun j =>
      implb (value_eqb (invoice_number i) (invoice_number j))
            (invoice_id i =? invoice_id j))
      (invoices s))
    (invoices s).

(** ** Further sample data *)

Module Cases.

(** A new number, customer and line item for the sample invoice. *)
Definition renumber : dict :=
  mk_dict (Some (VStr "INV-002")) (Some (VStr "Bob")) (Some (VDate 2024 2 1))
    (Some (VList [Sample.gadget])).

(** Line items only, no header field. *)
Definition items_only : dict :=
  mk_dict None None None (Some (VList [Sample.gadget])).

(** An empty list of line items. *)
Definition emptied : dict :=
  mk_dict None None None (Some (VList [])).

(** A header without the key for the line items. *)
Definition header_only : dict :=
  mk_dict (Some (VStr "INV-002")) (Some (VStr "Bob")) (Some (VDate 2024 2 1)) None.

End Cases.

(** * Properties *)

(** ** Text *)

Lemma lstrip_all_space (s : string) :
  Str.all_space (Str.lstrip s) = Str.all_space s.
Proof.
  induction s as [|c r IH]; simpl; [reflexivity|].
  destruct (Str.isspace c) eqn:Hc; simpl; [exact IH | now rewrite Hc].
Qed.

Lemma rstrip_is_empty (s : string) :
  Str.is_empty (Str.rstrip s) = Str.all_space s.
Proof.
  induction s as [|c r IH]; simpl; [reflexivity|].
  rewrite IH.
  destruct (Str.all_space r), (Str.isspace c); reflexivity.
Qed.

Lemma strip_is_empty (s : string) :
  Str.is_empty (Str.strip s) = Str.all_space s.
Proof.
  unfold Str.strip. now rewrite rstrip_is_empty, lstrip_all_space.
Qed.

Lemma is_empty_true (s : string) : Str.is_empty s = true <-> s = "".
Proof.
  destruct s; simpl; split; intro H; try reflexivity; discriminate.
Qed.

Lemma strip_empty_iff (s : string) :
  Str.strip s = "" <-> Str.all_space s = true.
Proof.
  rewrite <- strip_is_empty. symmetry. apply is_empty_true.
Qed.

(** ** Decimals *)

Lemma pow10_pos (e : Z) : (0 < Qpower (inject_Z 10) e)%Q.
Proof.
  apply Qpower_0_lt. reflexivity.
Qed.

Lemma to_Q_nonpos (d : Decimal.t) :
  (Decimal.to_Q d <= 0)%Q <-> Decimal.coef d <= 0.
Proof.
  unfold Decimal.to_Q.
  pose proof (pow10_pos (Decimal.exp d)) as Hp.
  destruct (Qpower (inject_Z 10) (Decimal.exp d)) as [pn pd].
  unfold Qlt in Hp. unfold Qle. simpl in *.
  split; intro H; nia.
Qed.

Lemma to_Q_pos (d : Decimal.t) :
  (0 < Decimal.to_Q d)%Q <-> 0 < Decimal.coef d.
Proof.
  unfold Decimal.to_Q.
  pose proof (pow10_pos (Decimal.exp d)) as Hp.
  destruct (Qpower (inject_Z 10) (Decimal.exp d)) as [pn pd].
  unfold Qlt in *. simpl in *.
  split; intro H; nia.
Qed.











(** ** The field validators of a line item *)

(** C6: a quantity that is zero or negative is refused with
    "Quantity must be a positive integer.", a unit price whose value is
    zero or negative with "Unit price must be a positive value."; a
    positive quantity and a positive unit price come back unchanged. *)
Theorem validate_positive (q : Z) (p : Decimal.t) :
  (q <= 0 ->
   InvoiceDetailSerializer.validate_quantity q
   = Raise (ValidationError "Quantity must be a positive integer."))
  /\ (0 < q -> InvoiceDetailSerializer.validate_quantity q = Return q)
  /\ ((Decimal.to_Q p <= 0)%Q ->
      InvoiceDetailSerializer.validate_unit_price p
      = Raise (ValidationError "Unit price must be a positive value."))
  /\ ((0 < Decimal.to_Q p)%Q ->
      InvoiceDetailSerializer.validate_unit_price p = Return p).
Proof.
  unfold InvoiceDetailSerializer.validate_quantity,
    InvoiceDetailSerializer.validate_unit_price, Decimal.le_zero.
  rewrite to_Q_nonpos, to_Q_pos.
  repeat split; intro H.
  - apply Z.leb_le in H. now rewrite H.
  - apply Z.leb_gt in H. now rewrite H.
  - apply Z.leb_le in H. now rewrite H.
  - apply Z.leb_gt in H. now rewrite H.
Qed.

(** C7: the description check fails with "Description cannot be empty
    or whitespace." exactly when the trimmed text is empty, which is
    when the text is empty or all whitespace; any other text comes back
    unchanged. *)
Theorem validate_description_blank (value : string) :
  (InvoiceDetailSerializer.validate_description value
   = Raise (ValidationError "Description cannot be empty or whitespace.")
   <-> Str.strip value = "")
  /\ (Str.strip value <> "" ->
      InvoiceDetailSerializer.validate_description value = Return value)
  /\ (Str.strip value = "" <-> Str.all_space value = true).
Proof.
  unfold InvoiceDetailSerializer.validate_description.
  split; [|split].
  - destruct (Str.is_empty (Str.strip value)) eqn:E.
    + apply is_empty_true in E. tauto.
    + split; [discriminate|].
      intro H. apply is_empty_true in H. congruence.
  - intro H. destruct (Str.is_empty (Str.strip value)) eqn:E; [|reflexivity].
    apply is_empty_true in E. contradiction.
  - apply strip_empty_iff.
Qed.

(** ** Looking up an invoice number *)

Lemma decimal_eqb_eq (a b : Decimal.t) : decimal_eqb a b = true <-> a = b.
Proof.
  destruct a as [c e], b as [c' e']. unfold decimal_eqb. simpl.
  rewrite andb_true_iff, !Z.eqb_eq.
  split; [intros [-> ->]; reflexivity | intro H; inversion H; auto].
Qed.

Lemma detail_data_eqb_eq (a b : detail_data) :
  detail_data_eqb a b = true <-> a = b.
Proof.
  destruct a as [x q p], b as [x' q' p']. unfold detail_data_eqb. simpl.
  rewrite !andb_true_iff, String.eqb_eq, Z.eqb_eq, decimal_eqb_eq.
  split; [intros [[-> ->] ->]; reflexivity | intro H; inversion H; auto].
Qed.

Lemma list_eqb_eq {A} (eqb : A -> A -> bool) (l m : list A) :
  (forall x y, eqb x y = true <-> x = y) ->
  list_eqb eqb l m = true <-> l = m.
Proof.
  intro Heq. revert m.
  induction l as [|x l IH]; intros [|y m]; simpl;
    try (split; [discriminate | intro H; inversion H]); try tauto.
  rewrite andb_true_iff, Heq, IH.
  split; [intros [-> ->]; reflexivity | intro H; inversion H; auto].
Qed.

Lemma value_eqb_eq (a b : value) : value_eqb a b = true <-> a = b.
Proof.
  destruct a, b; simpl;
    try (split; [discriminate | intro H; inversion H]); try tauto.
  - rewrite String.eqb_eq. split; [intros ->; reflexivity | intro H; inversion H; auto].
  - rewrite !andb_true_iff, !Z.eqb_eq.
    split; [intros [[-> ->] ->]; reflexivity | intro H; inversion H; auto].
  - rewrite (list_eqb_eq _ _ _ detail_data_eqb_eq).
    split; [intros ->; reflexivity | intro H; inversion H; auto].
Qed.

Lemma exists_number_taken (n : value) (s : Store) :
  existsb (fun i => value_eqb (invoice_number i) n) (invoices s) = true
  <-> number_taken n s.
Proof.
  unfold number_taken. rewrite existsb_exists.
  split; intros (i & Hin & H); exists i; split; auto; now apply value_eqb_eq.
Qed.

Lemma exists_number_free (n : value) (s : Store) :
  existsb (fun i => value_eqb (invoice_number i) n) (invoices s) = false
  <-> ~ number_taken n s.
Proof.
  rewrite <- exists_number_taken. symmetry. apply not_true_iff_false.
Qed.

(** ** Aggregate validation *)

(** What [validate] does, check by check. *)
Lemma validate_run (data : dict) (s : Store) :
  InvoiceSerializer.validate data s =
  if negb (truthy (get (d_details data)))
  then (Raise (ValidationError "Invoice must have at least one detail item."), s)
  else if existsb (fun i => value_eqb (invoice_number i) (get (d_invoice_number data)))
            (invoices s)
  then (Raise (ValidationError "Invoice number must be unique."), s)
  else match strip (get (d_customer_name data)) with
       | Raise e => (Raise e, s)
       | Return stripped =>
           if Str.is_empty stripped
           then (Raise (ValidationError "Customer name cannot be empty."), s)
           else if negb (truthy (get (d_date data)))
           then (Raise (ValidationError "Date cannot be empty."), s)
           else (Return data, s)
       end.
Proof.
  unfold InvoiceSerializer.validate, InvoiceSerializer._validate_details,
    InvoiceSerializer._validate_invoice_number,
    InvoiceSerializer._validate_customer_name,
    InvoiceSerializer._validate_date, invoice_number_exists,
    bind, lift, raise, ret.
  destruct (negb (truthy (get (d_details data)))); [reflexivity|].
  destruct (existsb _ (invoices s)); [reflexivity|].
  destruct (strip (get (d_customer_name data))) as [t|e]; [|reflexivity].
  destruct (Str.is_empty t); [reflexivity|].
  destruct (negb (truthy (get (d_date data)))); reflexivity.
Qed.

(** C3: [validate] runs four checks in a fixed order: that there are
    line items, that the invoice number is not taken, that the customer
    name is not blank, that the date is there.  The first check to
    raise decides the outcome and the checks after it are not run: the
    outcome is that check's error whatever the later fields hold.  When
    all four pass, the input comes back as it was.  Each check raises
    the ValidationError with its own message when its condition fails,
    and no check writes to storage. *)
Theorem validate_order (data : dict) (s : Store) :
  (forall e s1,
     InvoiceSerializer._validate_details (get (d_details data)) s = (Raise e, s1) ->
     InvoiceSerializer.validate data s = (Raise e, s1))
  /\ (forall e s1 s2,
        InvoiceSerializer._validate_details (get (d_details data)) s
        = (Return tt, s1) ->
        InvoiceSerializer._validate_invoice_number (get (d_invoice_number data)) s1
        = (Raise e, s2) ->
        InvoiceSerializer.validate data s = (Raise e, s2))
  /\ (forall e s1 s2 s3,
        InvoiceSerializer._validate_details (get (d_details data)) s
        = (Return tt, s1) ->
        InvoiceSerializer._validate_invoice_number (get (d_invoice_number data)) s1
        = (Return tt, s2) ->
        InvoiceSerializer._validate_customer_name (get (d_customer_name data)) s2
        = (Raise e, s3) ->
        InvoiceSerializer.validate data s = (Raise e, s3))
  /\ (forall e s1 s2 s3 s4,
        InvoiceSerializer._validate_details (get (d_details data)) s
        = (Return tt, s1) ->
        InvoiceSerializer._validate_invoice_number (get (d_invoice_number data)) s1
        = (Return tt, s2) ->
        InvoiceSerializer._validate_customer_name (get (d_customer_name data)) s2
        = (Return tt, s3) ->
        InvoiceSerializer._validate_date (get (d_date data)) s3 = (Raise e, s4) ->
        InvoiceSerializer.validate data s = (Raise e, s4))
  /\ (forall s1 s2 s3 s4,
        InvoiceSerializer._validate_details (get (d_details data)) s
        = (Return tt, s1) ->
        InvoiceSerializer._validate_invoice_number (get (d_invoice_number data)) s1
        = (Return tt, s2) ->
        InvoiceSerializer._validate_customer_name (get (d_customer_name data)) s2
        = (Return tt, s3) ->
        InvoiceSerializer._validate_date (get (d_date data)) s3 = (Return tt, s4) ->
        InvoiceSerializer.validate data s = (Return data, s) /\ s4 = s)
  /\ (forall details,
        InvoiceSerializer._validate_details details s
        = if truthy details then (Return tt, s)
          else (Raise (ValidationError
                         "Invoice must have at least one detail item."), s))
  /\ (forall number,
        (number_taken number s ->
         InvoiceSerializer._validate_invoice_number number s
         = (Raise (ValidationError "Invoice number must be unique."), s))
        /\ (~ number_taken number s ->
            InvoiceSerializer._validate_invoice_number number s = (Return tt, s)))
  /\ (forall name,
        InvoiceSerializer._validate_customer_name (VStr name) s
        = if Str.all_space name
          then (Raise (ValidationError "Customer name cannot be empty."), s)
          else (Return tt, s))
  /\ (forall date,
        InvoiceSerializer._validate_date date s
        = if truthy date then (Return tt, s)
          else (Raise (ValidationError "Date cannot be empty."), s)).
Proof.
  assert (Hframe : forall A (m : M A) (o : outcome A) (t t' : Store),
             (forall u, snd (m u) = u) -> m t = (o, t') -> t' = t).
  { intros A m o t t' Hm H. specialize (Hm t). rewrite H in Hm. exact Hm. }
  unfold InvoiceSerializer.validate, bind.
  split; [|split; [|split; [|split; [|split; [|split; [|split; [|split]]]]]]].
  - intros e s1 H1. now rewrite H1.
  - intros e s1 s2 H1 H2. now rewrite H1, H2.
  - intros e s1 s2 s3 H1 H2 H3. now rewrite H1, H2, H3.
  - intros e s1 s2 s3 s4 H1 H2 H3 H4. now rewrite H1, H2, H3, H4.
  - intros s1 s2 s3 s4 H1 H2 H3 H4. rewrite H1, H2, H3, H4. unfold ret.
    apply Hframe in H1;
      [|intro u; unfold InvoiceSerializer._validate_details, raise, ret;
        now destruct (negb _)].
    apply Hframe in H2;
      [|intro u; unfold InvoiceSerializer._validate_invoice_number,
          invoice_number_exists, bind, raise, ret; now destruct (existsb _ _)].
    apply Hframe in H3;
      [|intro u; unfold InvoiceSerializer._validate_customer_name, lift, bind,
          raise, ret;
        destruct (strip _) as [t|]; [now destruct (Str.is_empty t)|reflexivity]].
    apply Hframe in H4;
      [|intro u; unfold InvoiceSerializer._validate_date, raise, ret;
        now destruct (negb _)].
    subst. auto.
  - intro d. unfold InvoiceSerializer._validate_details, raise, ret.
    now destruct (truthy d).
  - intro n. unfold InvoiceSerializer._validate_invoice_number,
      invoice_number_exists, bind, raise, ret.
    split; intro H.
    + apply exists_number_taken in H. now rewrite H.
    + apply exists_number_free in H. now rewrite H.
  - intro name. unfold InvoiceSerializer._validate_customer_name, lift, bind,
      raise, ret.
    cbn [strip]. rewrite strip_is_empty. now destruct (Str.all_space name).
  - intro d. unfold InvoiceSerializer._validate_date, raise, ret.
    now destruct (truthy d).
Qed.

(** C2 (as amended): the uniqueness check fails with "Invoice number
    must be unique." exactly when a stored invoice has the submitted
    number, and passes otherwise.  [validate] as a whole fails with
    that message exactly when, besides, the line items are there, the
    check for them coming first.  The record being updated is not set
    apart: data carrying the number of any stored invoice, that
    invoice's own update included, is refused. *)
Theorem invoice_number_unique (n : value) (data : dict) (s : Store) :
  (InvoiceSerializer._validate_invoice_number n s
   = (Raise (ValidationError "Invoice number must be unique."), s)
   <-> number_taken n s)
  /\ (~ number_taken n s ->
      InvoiceSerializer._validate_invoice_number n s = (Return tt, s))
  /\ (InvoiceSerializer.validate data s
      = (Raise (ValidationError "Invoice number must be unique."), s)
      <-> truthy (get (d_details data)) = true
          /\ number_taken (get (d_invoice_number data)) s)
  /\ (forall instance,
        In instance (invoices s) ->
        get (d_invoice_number data) = invoice_number instance ->
        truthy (get (d_details data)) = true ->
        InvoiceSerializer.validate data s
        = (Raise (ValidationError "Invoice number must be unique."), s)).
Proof.
  split; [|split; [|split]].
  - unfold InvoiceSerializer._validate_invoice_number, invoice_number_exists,
      bind, raise, ret.
    rewrite <- exists_number_taken.
    destruct (existsb _ (invoices s)); split; intro H;
      try reflexivity; discriminate.
  - intro H. apply exists_number_free in H.
    unfold InvoiceSerializer._validate_invoice_number, invoice_number_exists,
      bind, raise, ret.
    now rewrite H.
  - rewrite validate_run, <- exists_number_taken.
    destruct (truthy (get (d_details data))); cbn [negb].
    + destruct (existsb _ (invoices s)).
      * split; auto.
      * split; [|intros [_ H]; discriminate].
        destruct (get (d_customer_name data)) as [|name| |]; cbn [strip];
          try discriminate.
        destruct (Str.is_empty (Str.strip name)); [discriminate|].
        destruct (negb (truthy (get (d_date data)))); discriminate.
    + split; [discriminate | intros [H _]; discriminate].
  - intros instance Hin Hn Hd.
    rewrite validate_run, Hd. cbn [negb].
    assert (Ht : number_taken (get (d_invoice_number data)) s)
      by (exists instance; auto).
    apply exists_number_taken in Ht. now rewrite Ht.
Qed.

(** C10: when the customer name is missing or [None] while the line
    items are there and the number is free, [validate] ends in the
    AttributeError of calling [strip] on [None], not in a validation
    error; the error "Customer name cannot be empty." comes only from a
    name that is present, is text, and is blank once trimmed. *)
Theorem customer_name_none (data : dict) (s : Store) :
  (get (d_customer_name data) = VNone ->
   truthy (get (d_details data)) = true ->
   ~ number_taken (get (d_invoice_number data)) s ->
   InvoiceSerializer.validate data s = (Raise (AttributeError "strip"), s))
  /\ (InvoiceSerializer.validate data s
      = (Raise (ValidationError "Customer name cannot be empty."), s) ->
      exists name,
        d_customer_name data = Some (VStr name) /\ Str.strip name = "").
Proof.
  rewrite validate_run. split.
  - intros Hn -> Hfree. apply exists_number_free in Hfree.
    rewrite Hfree, Hn. reflexivity.
  - destruct (negb (truthy (get (d_details data)))); [discriminate|].
    destruct (existsb _ (invoices s)); [discriminate|].
    destruct (d_customer_name data) as [[|name| |]|]; cbn [get strip];
      try discriminate.
    destruct (Str.is_empty (Str.strip name)) eqn:E.
    + intros _. exists name. split; [reflexivity|]. now apply is_empty_true.
    + destruct (negb (truthy (get (d_date data)))); discriminate.
Qed.

(** ** Persistence *)

Lemma new_rows_length (n pk : Z) (l : list detail_data) :
  Datatypes.length (new_rows n pk l) = Datatypes.length l.
Proof.
  revert n. induction l as [|d r IH]; intro n; simpl; [reflexivity|].
  now rewrite IH.
Qed.

Lemma new_rows_items (n pk : Z) (l : list detail_data) :
  map item_of (new_rows n pk l) = l.
Proof.
  revert n. induction l as [|d r IH]; intro n; simpl; [reflexivity|].
  rewrite IH. now destruct d.
Qed.

Lemma new_rows_in (n pk : Z) (l : list detail_data) (r : InvoiceDetail) :
  In r (new_rows n pk l) ->
  detail_invoice r = pk /\ n <= detail_id r < n + Z.of_nat (Datatypes.length l).
Proof.
  revert n. induction l as [|d t IH]; intros n H; [contradiction|].
  cbn [new_rows Datatypes.length] in *. rewrite Nat2Z.inj_succ.
  destruct H as [<-|H]; simpl; [lia|].
  apply IH in H. lia.
Qed.

Lemma filter_all {A} (f : A -> bool) (l : list A) :
  (forall x, In x l -> f x = true) -> filter f l = l.
Proof.
  induction l as [|x l IH]; intro H; simpl; [reflexivity|].
  rewrite (H x (or_introl eq_refl)), IH; [reflexivity|].
  intros y Hy. apply H. now right.
Qed.

Lemma filter_none {A} (f : A -> bool) (l : list A) :
  (forall x, In x l -> f x = false) -> filter f l = [].
Proof.
  induction l as [|x l IH]; intro H; simpl; [reflexivity|].
  rewrite (H x (or_introl eq_refl)). apply IH.
  intros y Hy. apply H. now right.
Qed.

Lemma new_rows_belong (n pk : Z) (l : list detail_data) :
  filter (belongs pk) (new_rows n pk l) = new_rows n pk l.
Proof.
  apply filter_all. intros r Hr. apply new_rows_in in Hr.
  unfold belongs. apply Z.eqb_eq. tauto.
Qed.

Lemma new_rows_others (n pk : Z) (l : list detail_data) :
  filter (fun d => negb (belongs pk d)) (new_rows n pk l) = [].
Proof.
  apply filter_none. intros r Hr. apply new_rows_in in Hr.
  unfold belongs. destruct Hr as [-> _]. now rewrite Z.eqb_refl.
Qed.

Lemma create_details_run (invoice : Invoice) (l : list detail_data) (s : Store) :
  InvoiceSerializer._create_invoice_details invoice (VList l) s
  = (Return tt,
     mk_Store (invoices s)
       (details s ++ new_rows (next_detail_id s) (invoice_id invoice) l)
       (next_invoice_id s)
       (next_detail_id s + Z.of_nat (Datatypes.length l))
       (journal s
        ++ insertions (invoice_id invoice)
             (new_rows (next_detail_id s) (invoice_id invoice) l))).
Proof.
  cbn [InvoiceSerializer._create_invoice_details].
  revert s. induction l as [|d r IH]; intro s.
  - cbn. unfold ret. rewrite !app_nil_r, Z.add_0_r. now destruct s.
  - cbn [for_each]. unfold bind at 1.
    unfold bind at 1. unfold InvoiceDetail_objects_create at 1.
    unfold ret at 1. rewrite IH.
    cbn [invoices details next_invoice_id next_detail_id journal
         new_rows Datatypes.length insertions map detail_id].
    rewrite <- !app_assoc. cbn [app].
    rewrite Nat2Z.inj_succ.
    replace (next_detail_id s + 1 + Z.of_nat (Datatypes.length r))
      with (next_detail_id s + Z.succ (Z.of_nat (Datatypes.length r))) by lia.
    reflexivity.
Qed.

Lemma create_run (defaults : Invoice) (validated_data : dict)
    (l : list detail_data) (s : Store) :
  d_details validated_data = Some (VList l) ->
  InvoiceSerializer.create defaults validated_data s
  = (Return (created defaults (next_invoice_id s) validated_data),
     mk_Store
       (invoices s ++ [created defaults (next_invoice_id s) validated_data])
       (details s ++ new_rows (next_detail_id s) (next_invoice_id s) l)
       (next_invoice_id s + 1)
       (next_detail_id s + Z.of_nat (Datatypes.length l))
       (journal s
        ++ InsertInvoice (next_invoice_id s)
           :: insertions (next_invoice_id s)
                (new_rows (next_detail_id s) (next_invoice_id s) l))).
Proof.
  intro Hd.
  unfold InvoiceSerializer.create, pop_details, lift. rewrite Hd.
  unfold bind at 1. unfold bind at 1.
  unfold InvoiceSerializer.Invoice_objects_create at 1.
  cbn [d_invoice_number d_customer_name d_date invoice_id].
  unfold bind. rewrite create_details_run. unfold ret.
  cbn [invoices details next_invoice_id next_detail_id journal invoice_id].
  rewrite <- app_assoc. reflexivity.
Qed.

Lemma update_run (instance : Invoice) (validated_data : dict)
    (l : list detail_data) (s : Store) :
  d_details validated_data = Some (VList l) ->
  let pk := invoice_id instance in
  let row := updated instance validated_data in
  let stored := existsb (fun i => invoice_id i =? pk) (invoices s) in
  InvoiceSerializer.update instance validated_data s
  = (Return row,
     mk_Store
       (if stored
        then map (fun i => if invoice_id i =? pk then row else i) (invoices s)
        else invoices s ++ [row])
       (filter (fun d => negb (belongs pk d)) (details s)
        ++ new_rows (next_detail_id s) pk l)
       (next_invoice_id s)
       (next_detail_id s + Z.of_nat (Datatypes.length l))
       (journal s
        ++ (if stored then UpdateInvoice pk else InsertInvoice pk)
           :: DeleteDetails pk
           :: insertions pk (new_rows (next_detail_id s) pk l))).
Proof.
  intro Hd. cbv zeta.
  unfold InvoiceSerializer.update, pop_details, lift. rewrite Hd.
  unfold bind at 1.
  cbn [d_invoice_number d_customer_name d_date invoice_id invoice_number
       customer_name date].
  fold (updated instance validated_data).
  unfold bind at 1. unfold bind at 1. unfold save.
  replace (invoice_id (updated instance validated_data))
    with (invoice_id instance) by reflexivity.
  destruct (existsb _ (invoices s));
    unfold details_all_delete at 1; unfold bind;
    rewrite create_details_run; unfold ret;
    cbn [invoices details next_invoice_id next_detail_id journal invoice_id
         updated];
    rewrite <- !app_assoc; reflexivity.
Qed.

Lemma delete_run (instance : Invoice) (s : Store) :
  InvoiceSerializer.delete instance s
  = (Return InvoiceSerializer.confirmation,
     mk_Store
       (filter (fun i => negb (invoice_id i =? invoice_id instance)) (invoices s))
       (filter (fun d => negb (belongs (invoice_id instance) d)) (details s))
       (next_invoice_id s) (next_detail_id s)
       (journal s ++ [DeleteDetails (invoice_id instance);
                      DeleteInvoice (invoice_id instance)])).
Proof.
  unfold InvoiceSerializer.delete, bind, details_all_delete, instance_delete, ret.
  cbn [invoices details next_invoice_id next_detail_id journal].
  rewrite <- app_assoc. reflexivity.
Qed.

Lemma store_ok_spec (s : Store) :
  store_ok s = true <->
  (forall i, In i (invoices s) -> invoice_id i < next_invoice_id s)
  /\ (forall d, In d (details s) ->
        detail_id d < next_detail_id s /\ detail_invoice d < next_invoice_id s).
Proof.
  unfold store_ok. rewrite andb_true_iff, !forallb_forall.
  split; intros [Hi Hd]; split.
  - intros i Hin. apply Z.ltb_lt. auto.
  - intros d Hin. specialize (Hd d Hin).
    apply andb_true_iff in Hd. rewrite !Z.ltb_lt in Hd. exact Hd.
  - intros i Hin. apply Z.ltb_lt. auto.
  - intros d Hin. apply andb_true_iff. rewrite !Z.ltb_lt. auto.
Qed.


(** C1: [update] with the line items [l] leaves the invoice with
    exactly the rows made from [l], one for each item and in the order
    of [l], all of them new rows under fresh identifiers.  Every line
    item the invoice had before is gone from storage, also one that
    equals a submitted item field by field; the line items of the other
    invoices stay as they were. *)
Theorem update_replaces_details (instance : Invoice) (validated_data : dict)
    (l : list detail_data) (s : Store) :
  d_details validated_data = Some (VList l) ->
  store_ok s = true ->
  exists instance' rows s',
    InvoiceSerializer.update instance validated_data s = (Return instance', s')
    /\ invoice_id instance' = invoice_id instance
    /\ filter (belongs (invoice_id instance)) (details s') = rows
    /\ Datatypes.length rows = Datatypes.length l
    /\ map item_of rows = l
    /\ (forall r, In r rows -> forall d, In d (details s) ->
          detail_id d <> detail_id r)
    /\ (forall d, In d (details s) ->
          detail_invoice d = invoice_id instance -> ~ In d (details s'))
    /\ filter (fun d => negb (belongs (invoice_id instance) d)) (details s')
       = filter (fun d => negb (belongs (invoice_id instance) d)) (details s).
Proof.
  intros Hd Hok. apply store_ok_spec in Hok as [_ Hdet].
  eexists _, (new_rows (next_detail_id s) (invoice_id instance) l), _.
  split; [apply (update_run instance validated_data l s Hd)|].
  cbn [invoices details journal next_invoice_id next_detail_id updated
       invoice_id].
  repeat split.
  - rewrite filter_app, new_rows_belong.
    rewrite filter_none; [reflexivity|].
    intros d Hin. apply filter_In in Hin as [_ Hin].
    now apply negb_true_iff in Hin.
  - apply new_rows_length.
  - apply new_rows_items.
  - intros r Hr d Hin. apply new_rows_in in Hr. specialize (Hdet d Hin). lia.
  - intros d Hin Hown Hin'. apply in_app_or in Hin' as [Hr|Hr].
    + apply filter_In in Hr as [_ Hr]. unfold belongs in Hr.
      apply negb_true_iff, Z.eqb_neq in Hr. contradiction.
    + apply new_rows_in in Hr. specialize (Hdet d Hin). lia.
  - rewrite filter_app, new_rows_others, app_nil_r.
    apply filter_all. intros d Hin. now apply filter_In in Hin.
Qed.

(** C8: [update] on a stored invoice overwrites its invoice number,
    customer name and date with what the input holds under these keys,
    and keeps the stored value of each field whose key the input lacks.
    The identifier stays, the stored row becomes the returned instance,
    and the rows of the other invoices are as before. *)
Theorem update_header (instance : Invoice) (validated_data : dict)
    (l : list detail_data) (s : Store) :
  In instance (invoices s) ->
  d_details validated_data = Some (VList l) ->
  exists instance' s',
    InvoiceSerializer.update instance validated_data s = (Return instance', s')
    /\ invoice_id instance' = invoice_id instance
    /\ ((forall v, d_invoice_number validated_data = Some v ->
           invoice_number instance' = v)
        /\ (d_invoice_number validated_data = None ->
            invoice_number instance' = invoice_number instance))
    /\ ((forall v, d_customer_name validated_data = Some v ->
           customer_name instance' = v)
        /\ (d_customer_name validated_data = None ->
            customer_name instance' = customer_name instance))
    /\ ((forall v, d_date validated_data = Some v -> date instance' = v)
        /\ (d_date validated_data = None -> date instance' = date instance))
    /\ In instance' (invoices s')
    /\ (forall i, In i (invoices s') ->
          invoice_id i = invoice_id instance -> i = instance')
    /\ (forall i, invoice_id i <> invoice_id instance ->
          (In i (invoices s') <-> In i (invoices s)))
    /\ Datatypes.length (invoices s') = Datatypes.length (invoices s).
Proof.
  intros Hin Hd.
  eexists _, _.
  split; [apply (update_run instance validated_data l s Hd)|].
  assert (Hstored : existsb (fun i => invoice_id i =? invoice_id instance)
                      (invoices s) = true).
  { apply existsb_exists. exists instance. split; [exact Hin|apply Z.eqb_refl]. }
  rewrite Hstored.
  cbn [invoices updated invoice_id invoice_number customer_name date].
  split; [reflexivity|].
  split; [split; [intros v ->|intros ->]; reflexivity|].
  split; [split; [intros v ->|intros ->]; reflexivity|].
  split; [split; [intros v ->|intros ->]; reflexivity|].
  split; [|split; [|split]].
  - apply in_map_iff. exists instance. now rewrite Z.eqb_refl.
  - intros i Hi Hid. apply in_map_iff in Hi as (j & Hj & _).
    destruct (Z.eqb_spec (invoice_id j) (invoice_id instance)) as [_|Hne];
      [now symmetry|].
    subst j. contradiction.
  - intros i Hid. rewrite in_map_iff. split.
    + intros (j & Hj & Hjin).
      destruct (Z.eqb_spec (invoice_id j) (invoice_id instance)) as [_|_].
      * subst i. now contradiction Hid.
      * now subst j.
    + intro Hi. exists i. split; [|exact Hi].
      destruct (Z.eqb_spec (invoice_id i) (invoice_id instance)); [contradiction|reflexivity].
  - apply length_map.
Qed.

(** C9: [delete] first destroys every line item of the invoice, while
    the header is still stored, then destroys the header, and returns
    the confirmation; afterwards storage holds neither the header nor
    any line item of the invoice, and keeps every other row. *)
Theorem delete_cascades (instance : Invoice) (s : Store) :
  exists s1 s',
    details_all_delete instance s = (Return tt, s1)
    /\ invoices s1 = invoices s
    /\ (forall d, In d (details s1) -> detail_invoice d <> invoice_id instance)
    /\ instance_delete instance s1 = (Return tt, s')
    /\ InvoiceSerializer.delete instance s
       = (Return InvoiceSerializer.confirmation, s')
    /\ InvoiceSerializer.confirmation
       = [("message", "Invoice and its details deleted successfully.")]
    /\ journal s'
       = journal s ++ [DeleteDetails (invoice_id instance);
                       DeleteInvoice (invoice_id instance)]
    /\ (forall i, In i (invoices s') <->
          In i (invoices s) /\ invoice_id i <> invoice_id instance)
    /\ (forall d, In d (details s') <->
          In d (details s) /\ detail_invoice d <> invoice_id instance).
Proof.
  eexists _, _.
  split; [reflexivity|].
  split; [reflexivity|].
  split.
  { cbn [details]. intros d Hd. apply filter_In in Hd as [_ Hd].
    unfold belongs in Hd. now apply negb_true_iff, Z.eqb_neq in Hd. }
  split; [reflexivity|].
  split.
  { rewrite delete_run. cbn [invoices details next_invoice_id next_detail_id journal].
    rewrite <- app_assoc. reflexivity. }
  split; [reflexivity|].
  cbn [invoices details journal].
  split; [now rewrite <- app_assoc|].
  split.
  - intro i. rewrite filter_In, negb_true_iff, Z.eqb_neq. reflexivity.
  - intro d. rewrite filter_In. unfold belongs.
    rewrite negb_true_iff, Z.eqb_neq. reflexivity.
Qed.

(** ** The statements at sample data *)



Lemma validate_positive_witness :
  InvoiceDetailSerializer.validate_quantity 0
  = Raise (ValidationError "Quantity must be a positive integer.")
  /\ InvoiceDetailSerializer.validate_quantity 3 = Return 3
  /\ InvoiceDetailSerializer.validate_unit_price (Decimal.mk (-5) (-1))
     = Raise (ValidationError "Unit price must be a positive value.")
  /\ InvoiceDetailSerializer.validate_unit_price (Decimal.mk 250 (-2))
     = Return (Decimal.mk 250 (-2)).
Proof.
  destruct (validate_positive 0 (Decimal.mk (-5) (-1))) as (Hq & _ & Hp & _).
  destruct (validate_positive 3 (Decimal.mk 250 (-2))) as (_ & Hq' & _ & Hp').
  split; [apply Hq; lia|].
  split; [apply Hq'; lia|].
  split; [apply Hp; vm_compute; discriminate|].
  apply Hp'. reflexivity.
Defined.

Lemma validate_description_blank_witness :
  InvoiceDetailSerializer.validate_description "Widget" = Return "Widget"
  /\ InvoiceDetailSerializer.validate_description "   "
     = Raise (ValidationError "Description cannot be empty or whitespace.").
Proof.
  split.
  - apply (validate_description_blank "Widget"). simpl. discriminate.
  - apply (validate_description_blank "   "). reflexivity.
Defined.

(** The sample store is the empty store after [create] on the sample
    data, and validating the same data again is refused. *)
Example sample_create_then_resubmit :
  InvoiceSerializer.create Sample.defaults Sample.acme_data Sample.empty
  = (Return Sample.acme, Sample.stored)
  /\ InvoiceSerializer.validate Sample.acme_data Sample.stored
     = (Raise (ValidationError "Invoice number must be unique."), Sample.stored)
  /\ store_ok Sample.stored = true.
Proof.
  repeat split.
Qed.

Lemma number_free_in_empty (n : value) : ~ number_taken n Sample.empty.
Proof.
  intros (i & Hin & _). exact Hin.
Qed.

Lemma acme_number_taken : number_taken (VStr "INV-001") Sample.stored.
Proof.
  exists Sample.acme. split; [left|]; reflexivity.
Qed.

Lemma validate_order_witness :
  InvoiceSerializer.validate Sample.acme_data Sample.empty
  = (Return Sample.acme_data, Sample.empty)
  /\ InvoiceSerializer.validate Sample.no_items Sample.stored
     = (Raise (ValidationError "Invoice must have at least one detail item."),
        Sample.stored)
  /\ InvoiceSerializer.validate Sample.acme_data Sample.stored
     = (Raise (ValidationError "Invoice number must be unique."), Sample.stored).
Proof.
  split; [|split].
  - destruct (validate_order Sample.acme_data Sample.empty)
      as (_ & _ & _ & _ & Hpass & _).
    apply (Hpass Sample.empty Sample.empty Sample.empty Sample.empty);
      reflexivity.
  - destruct (validate_order Sample.no_items Sample.stored) as (Hfirst & _).
    apply Hfirst. reflexivity.
  - destruct (validate_order Sample.acme_data Sample.stored)
      as (_ & Hsecond & _).
    apply (Hsecond _ Sample.stored); reflexivity.
Defined.

Lemma invoice_number_unique_witness :
  InvoiceSerializer.validate Sample.acme_data Sample.stored
  = (Raise (ValidationError "Invoice number must be unique."), Sample.stored)
  /\ InvoiceSerializer._validate_invoice_number (VStr "INV-002") Sample.empty
     = (Return tt, Sample.empty).
Proof.
  split.
  - apply (invoice_number_unique (VStr "INV-001") Sample.acme_data Sample.stored)
      with (instance := Sample.acme).
    + left. reflexivity.
    + reflexivity.
    + reflexivity.
  - apply (invoice_number_unique (VStr "INV-002") Sample.acme_data Sample.empty).
    apply number_free_in_empty.
Defined.

(** The number INV-001 is taken, yet data without line items is refused
    for the missing items, not for the number. *)
Lemma number_taken_other_error :
  ~ (InvoiceSerializer.validate Sample.no_items Sample.stored
     = (Raise (ValidationError "Invoice number must be unique."), Sample.stored)
     <-> number_taken (get (d_invoice_number Sample.no_items)) Sample.stored).
Proof.
  intros [_ H]. specialize (H acme_number_taken). discriminate H.
Qed.

Lemma customer_name_none_witness :
  InvoiceSerializer.validate Sample.no_name Sample.empty
  = (Raise (AttributeError "strip"), Sample.empty).
Proof.
  apply (customer_name_none Sample.no_name Sample.empty).
  - reflexivity.
  - reflexivity.
  - apply number_free_in_empty.
Defined.


Lemma update_replaces_details_witness :
  exists instance' s',
    InvoiceSerializer.update Sample.acme Sample.rename Sample.stored
    = (Return instance', s')
    /\ map item_of (filter (belongs 1) (details s')) = [Sample.widget].
Proof.
  destruct (update_replaces_details Sample.acme Sample.rename [Sample.widget]
              Sample.stored eq_refl eq_refl)
    as (instance' & rows & s' & Hrun & _ & Hrows & _ & Hitems & _).
  exists instance', s'. split; [exact Hrun|].
  change (invoice_id Sample.acme) with 1 in Hrows. now rewrite Hrows.
Defined.

Lemma update_header_witness :
  exists instance' s',
    InvoiceSerializer.update Sample.acme Sample.rename Sample.stored
    = (Return instance', s')
    /\ invoice_number instance' = VStr "INV-001"
    /\ customer_name instance' = VStr "Bob"
    /\ date instance' = VDate 2024 1 1.
Proof.
  destruct (update_header Sample.acme Sample.rename [Sample.widget]
              Sample.stored (or_introl eq_refl) eq_refl)
    as (instance' & s' & Hrun & _ & [_ Hnumber] & [Hname _] & [_ Hdate] & _).
  exists instance', s'. split; [exact Hrun|].
  split; [exact (Hnumber eq_refl)|].
  split; [exact (Hname _ eq_refl)|exact (Hdate eq_refl)].
Defined.

(** * Further properties *)

(** ** Storage stays consistent *)

Lemma distinct_NoDup (l : list Z) : distinct l = true <-> NoDup l.
Proof.
  induction l as [|x r IH]; simpl.
  - split; [constructor|reflexivity].
  - rewrite andb_true_iff, negb_true_iff, NoDup_cons_iff, IH.
    assert (H : existsb (Z.eqb x) r = false <-> ~ In x r).
    { rewrite <- not_true_iff_false, existsb_exists. split.
      - intros H Hin. apply H. exists x. split; [exact Hin|apply Z.eqb_refl].
      - intros H (y & Hy & Heq). apply Z.eqb_eq in Heq. now subst y. }
    now rewrite H.
Qed.

Lemma no_orphans_spec (s : Store) :
  no_orphans s = true <->
  forall d, In d (details s) ->
    exists i, In i (invoices s) /\ invoice_id i = detail_invoice d.
Proof.
  unfold no_orphans. rewrite forallb_forall.
  split; intros H d Hd; specialize (H d Hd).
  - apply existsb_exists in H as (i & Hi & Heq). exists i.
    apply Z.eqb_eq in Heq. auto.
  - apply existsb_exists. destruct H as (i & Hi & Heq). exists i.
    split; [exact Hi|now apply Z.eqb_eq].
Qed.

Lemma consistent_spec (s : Store) :
  consistent s = true <->
  store_ok s = true
  /\ NoDup (map invoice_id (invoices s))
  /\ NoDup (map detail_id (details s))
  /\ (forall d, In d (details s) ->
        exists i, In i (invoices s) /\ invoice_id i = detail_invoice d).
Proof.
  unfold consistent, keys_unique.
  rewrite !andb_true_iff, !distinct_NoDup, no_orphans_spec. tauto.
Qed.

Lemma new_rows_keys (n pk : Z) (l : list detail_data) :
  NoDup (map detail_id (new_rows n pk l)).
Proof.
  revert n. induction l as [|d r IH]; intro n; simpl; constructor.
  - intro Hin. apply in_map_iff in Hin as (x & Hx & Hin).
    apply new_rows_in in Hin. simpl in Hx. lia.
  - apply IH.
Qed.

Lemma NoDup_map_filter {A} (f : A -> Z) (p : A -> bool) (l : list A) :
  NoDup (map f l) -> NoDup (map f (filter p l)).
Proof.
  induction l as [|x r IH]; simpl; intro H; [constructor|].
  apply NoDup_cons_iff in H as [Hx Hr].
  destruct (p x); simpl; [|now apply IH].
  constructor; [|now apply IH].
  intro Hin. apply Hx. apply in_map_iff in Hin as (y & Hy & Hin).
  apply in_map_iff. exists y. split; [exact Hy|].
  now apply filter_In in Hin.
Qed.

Lemma NoDup_map_same {A} (f : A -> Z) (l : list A) (a b : A) :
  NoDup (map f l) -> In a l -> In b l -> f a = f b -> a = b.
Proof.
  induction l as [|x r IH]; simpl; intros H Ha Hb Heq; [contradiction|].
  apply NoDup_cons_iff in H as [Hx Hr].
  destruct Ha as [->|Ha], Hb as [->|Hb]; auto.
  - exfalso. apply Hx. rewrite Heq. now apply in_map.
  - exfalso. apply Hx. rewrite <- Heq. now apply in_map.
Qed.

(** X1: [create] keeps storage consistent: identifiers stay below the
    next free ones and unique, and every line item has its invoice. *)
Theorem create_keeps_consistent (defaults : Invoice) (validated_data : dict)
    (l : list detail_data) (s : Store) :
  d_details validated_data = Some (VList l) ->
  consistent s = true ->
  consistent (snd (InvoiceSerializer.create defaults validated_data s)) = true.
Proof.
  intros Hd Hc. rewrite (create_run defaults validated_data l s Hd).
  apply consistent_spec in Hc as (Hok & Hki & Hkd & Horph).
  apply store_ok_spec in Hok as [Hi Hdet].
  apply consistent_spec.
  cbn [snd invoices details next_invoice_id next_detail_id].
  split; [|split; [|split]].
  - apply store_ok_spec.
    cbn [invoices details next_invoice_id next_detail_id]. split.
    + intros i Hin. apply in_app_or in Hin as [Hin|[<-|[]]].
      * specialize (Hi i Hin). lia.
      * simpl. lia.
    + intros d Hin. apply in_app_or in Hin as [Hin|Hin].
      * specialize (Hdet d Hin). lia.
      * apply new_rows_in in Hin. lia.
  - rewrite map_app. apply NoDup_app; [exact Hki|repeat constructor; auto|].
    intros a Ha [<-|[]]. apply in_map_iff in Ha as (i & Heq & Hin).
    specialize (Hi i Hin). simpl in Heq. lia.
  - rewrite map_app. apply NoDup_app; [exact Hkd|apply new_rows_keys|].
    intros a Ha Hb. apply in_map_iff in Ha as (d & Heq & Hin).
    apply in_map_iff in Hb as (r & Heq' & Hr).
    specialize (Hdet d Hin). apply new_rows_in in Hr. lia.
  - intros d Hin. apply in_app_or in Hin as [Hin|Hin].
    + destruct (Horph d Hin) as (i & Hi' & Heq). exists i.
      split; [apply in_or_app; now left|exact Heq].
    + apply new_rows_in in Hin as [Hown _].
      eexists. split; [apply in_or_app; right; left; reflexivity|].
      now rewrite Hown.
Qed.

(** X2: [update] of a stored invoice keeps storage consistent. *)
Theorem update_keeps_consistent (instance : Invoice) (validated_data : dict)
    (l : list detail_data) (s : Store) :
  In instance (invoices s) ->
  d_details validated_data = Some (VList l) ->
  consistent s = true ->
  consistent (snd (InvoiceSerializer.update instance validated_data s)) = true.
Proof.
  intros Hin Hd Hc. rewrite (update_run instance validated_data l s Hd).
  assert (Hstored : existsb (fun i => invoice_id i =? invoice_id instance)
                      (invoices s) = true).
  { apply existsb_exists. exists instance. split; [exact Hin|apply Z.eqb_refl]. }
  rewrite Hstored.
  apply consistent_spec in Hc as (Hok & Hki & Hkd & Horph).
  apply store_ok_spec in Hok as [Hi Hdet].
  set (f := fun i => if invoice_id i =? invoice_id instance
                     then updated instance validated_data else i).
  assert (Hf : forall i, invoice_id (f i) = invoice_id i).
  { intro i. unfold f.
    destruct (Z.eqb_spec (invoice_id i) (invoice_id instance)) as [->|_];
      reflexivity. }
  assert (Hids : map invoice_id (map f (invoices s)) = map invoice_id (invoices s)).
  { rewrite map_map. apply map_ext. exact Hf. }
  apply consistent_spec.
  cbn [snd invoices details next_invoice_id next_detail_id].
  split; [|split; [|split]].
  - apply store_ok_spec.
    cbn [invoices details next_invoice_id next_detail_id]. split.
    + intros i Hi'. apply in_map_iff in Hi' as (j & <- & Hj).
      rewrite Hf. auto.
    + intros d Hd'. apply in_app_or in Hd' as [Hd'|Hd'].
      * apply filter_In in Hd' as [Hd' _]. specialize (Hdet d Hd'). lia.
      * apply new_rows_in in Hd'. specialize (Hi instance Hin). lia.
  - now rewrite Hids.
  - rewrite map_app.
    apply NoDup_app; [now apply NoDup_map_filter|apply new_rows_keys|].
    intros a Ha Hb. apply in_map_iff in Ha as (d & Heq & Hd').
    apply filter_In in Hd' as [Hd' _].
    apply in_map_iff in Hb as (r & Heq' & Hr).
    specialize (Hdet d Hd'). apply new_rows_in in Hr. lia.
  - intros d Hd'. apply in_app_or in Hd' as [Hd'|Hd'].
    + apply filter_In in Hd' as [Hd' _].
      destruct (Horph d Hd') as (i & Hi' & Heq). exists (f i).
      split; [now apply in_map|now rewrite Hf].
    + apply new_rows_in in Hd' as [Hown _]. exists (f instance).
      split; [now apply in_map|now rewrite Hf].
Qed.

(** X3: [delete] keeps storage consistent, whichever invoice it is
    given: with the header go all of its line items, so that none is
    left without an invoice. *)
Theorem delete_keeps_consistent (instance : Invoice) (s : Store) :
  consistent s = true ->
  consistent (snd (InvoiceSerializer.delete instance s)) = true.
Proof.
  intro Hc. rewrite delete_run.
  apply consistent_spec in Hc as (Hok & Hki & Hkd & Horph).
  apply store_ok_spec in Hok as [Hi Hdet].
  apply consistent_spec.
  cbn [snd invoices details next_invoice_id next_detail_id].
  split; [|split; [|split]].
  - apply store_ok_spec.
    cbn [invoices details next_invoice_id next_detail_id]. split.
    + intros i Hin. apply filter_In in Hin as [Hin _]. auto.
    + intros d Hin. apply filter_In in Hin as [Hin _]. auto.
  - now apply NoDup_map_filter.
  - now apply NoDup_map_filter.
  - intros d Hin. apply filter_In in Hin as [Hin Hown].
    destruct (Horph d Hin) as (i & Hi' & Heq). exists i.
    split; [|exact Heq]. apply filter_In. split; [exact Hi'|].
    unfold belongs in Hown. now rewrite Heq.
Qed.

(** ** Outcomes of validation *)

(** X4: [validate] accepts exactly the data with line items, a number
    no stored invoice has, a customer name that is text and not blank,
    and a date; what it returns is then the data it was given. *)
Theorem validate_accepts (data : dict) (s : Store) :
  (forall r s', InvoiceSerializer.validate data s = (Return r, s') ->
     r = data /\ s' = s)
  /\ (InvoiceSerializer.validate data s = (Return data, s) <->
      truthy (get (d_details data)) = true
      /\ ~ number_taken (get (d_invoice_number data)) s
      /\ (exists name,
            get (d_customer_name data) = VStr name /\ Str.all_space name = false)
      /\ truthy (get (d_date data)) = true).
Proof.
  rewrite validate_run, <- exists_number_free.
  destruct (truthy (get (d_details data))); cbn [negb].
  2: { split; [discriminate|]. split; [discriminate|]. intros [H _]. discriminate. }
  destruct (existsb _ (invoices s)).
  { split; [discriminate|]. split; [discriminate|]. intros (_ & H & _). discriminate. }
  destruct (get (d_customer_name data)) as [|name| |]; cbn [strip].
  1,3,4: split; [discriminate|]; split; [discriminate|];
         intros (_ & _ & (n & Hn & _) & _); discriminate.
  rewrite strip_is_empty.
  destruct (Str.all_space name) eqn:Hname.
  { split; [discriminate|]. split; [discriminate|].
    intros (_ & _ & (n & Hn & Hs) & _). inversion Hn. subst n. congruence. }
  destruct (truthy (get (d_date data))); cbn [negb].
  2: { split; [discriminate|]. split; [discriminate|]. intros (_ & _ & _ & H). discriminate. }
  split.
  - intros r s' H. inversion H. auto.
  - split; [intros _|reflexivity].
    repeat split; try reflexivity. exists name. auto.
Qed.

(** X5: [validate] never writes to storage and ends in one of six ways:
    it returns the data, raises one of its four validation errors, or
    raises the AttributeError of [strip]; the last happens exactly when
    there are line items, the number is free and the customer name is
    no text. *)
Theorem validate_outcomes (data : dict) (s : Store) :
  (exists o,
     InvoiceSerializer.validate data s = (o, s)
     /\ (o = Return data
         \/ o = Raise (ValidationError "Invoice must have at least one detail item.")
         \/ o = Raise (ValidationError "Invoice number must be unique.")
         \/ o = Raise (ValidationError "Customer name cannot be empty.")
         \/ o = Raise (ValidationError "Date cannot be empty.")
         \/ o = Raise (AttributeError "strip")))
  /\ (InvoiceSerializer.validate data s = (Raise (AttributeError "strip"), s) <->
      truthy (get (d_details data)) = true
      /\ ~ number_taken (get (d_invoice_number data)) s
      /\ forall name, get (d_customer_name data) <> VStr name).
Proof.
  rewrite validate_run, <- exists_number_free.
  destruct (truthy (get (d_details data))); cbn [negb].
  2: { split; [eexists; split; [reflexivity|tauto]|].
       split; [discriminate|intros [H _]; discriminate]. }
  destruct (existsb _ (invoices s)).
  { split; [eexists; split; [reflexivity|tauto]|].
    split; [discriminate|intros (_ & H & _); discriminate]. }
  destruct (get (d_customer_name data)) as [|name| |]; cbn [strip].
  1,3,4: split; [eexists; split; [reflexivity|tauto]|];
         split; [intros _; repeat split; intros n; discriminate|reflexivity].
  assert (Hno : ~ (true = true /\ false = false /\
                   forall n, VStr name <> VStr n)).
  { intros (_ & _ & H). now apply (H name). }
  destruct (Str.is_empty (Str.strip name)).
  { split; [eexists; split; [reflexivity|tauto]|].
    split; [discriminate|intro H; now apply Hno in H]. }
  destruct (truthy (get (d_date data))); cbn [negb];
    (split; [eexists; split; [reflexivity|tauto]|];
     split; [discriminate|intro H; now apply Hno in H]).
Qed.

(** ** Edge cases of [create] and [update] *)

(** X6: data without the key [details] makes [create] and [update]
    raise the KeyError of that key before anything is written: storage,
    header fields included, is as it was. *)
Theorem missing_details_key (defaults instance : Invoice)
    (validated_data : dict) (s : Store) :
  d_details validated_data = None ->
  InvoiceSerializer.create defaults validated_data s
  = (Raise (KeyError "details"), s)
  /\ InvoiceSerializer.update instance validated_data s
     = (Raise (KeyError "details"), s).
Proof.
  intro H.
  unfold InvoiceSerializer.create, InvoiceSerializer.update, pop_details,
    lift, bind.
  rewrite H. split; reflexivity.
Qed.

Lemma has_items_new_rows (n pk : Z) (l : list detail_data) (old : list InvoiceDetail) :
  (forall d, In d old -> detail_invoice d <> pk) ->
  existsb (belongs pk) (old ++ new_rows n pk l)
  = match l with [] => false | _ :: _ => true end.
Proof.
  intro Hold. rewrite existsb_app.
  replace (existsb (belongs pk) old) with false.
  - destruct l as [|d r]; [reflexivity|]. cbn. unfold belongs at 1. cbn.
    now rewrite Z.eqb_refl.
  - symmetry. apply not_true_iff_false. intro H.
    apply existsb_exists in H as (d & Hd & Hb).
    apply Z.eqb_eq in Hb. now apply (Hold d).
Qed.


(** ** How the operations compose *)

(** X8: once [create] has stored an invoice, data that carries its
    number and has line items is refused by [validate] as not unique;
    and when the number was free before, the new invoice is the only
    stored one that has it. *)
Theorem create_then_number_taken (defaults : Invoice) (validated_data : dict)
    (l : list detail_data) (s : Store) :
  d_details validated_data = Some (VList l) ->
  exists invoice s',
    InvoiceSerializer.create defaults validated_data s = (Return invoice, s')
    /\ In invoice (invoices s')
    /\ (forall data,
          get (d_invoice_number data) = invoice_number invoice ->
          truthy (get (d_details data)) = true ->
          InvoiceSerializer.validate data s'
          = (Raise (ValidationError "Invoice number must be unique."), s'))
    /\ (~ number_taken (invoice_number invoice) s ->
        forall i, In i (invoices s') ->
          invoice_number i = invoice_number invoice -> i = invoice).
Proof.
  intro Hd.
  eexists _, _. split; [apply (create_run defaults validated_data l s Hd)|].
  cbn [invoices].
  split; [apply in_or_app; right; left; reflexivity|].
  split.
  - intros data Hn Ht. rewrite validate_run, Ht. cbn [negb invoices].
    rewrite Hn.
    replace (existsb _ _) with true; [reflexivity|].
    symmetry. apply existsb_exists. eexists.
    split; [apply in_or_app; right; left; reflexivity|].
    now apply value_eqb_eq.
  - intros Hfree i Hin Hnum. apply in_app_or in Hin as [Hin|[<-|[]]].
    + exfalso. apply Hfree. exists i. auto.
    + reflexivity.
Qed.

(** X9: deleting the invoice that [create] has just stored gives back
    the two tables as they were before, while the identifiers it used
    are not handed out again. *)
Theorem create_then_delete (defaults : Invoice) (validated_data : dict)
    (l : list detail_data) (s : Store) :
  d_details validated_data = Some (VList l) ->
  store_ok s = true ->
  exists invoice s1 s2,
    InvoiceSerializer.create defaults validated_data s = (Return invoice, s1)
    /\ InvoiceSerializer.delete invoice s1
       = (Return InvoiceSerializer.confirmation, s2)
    /\ invoices s2 = invoices s
    /\ details s2 = details s
    /\ next_invoice_id s2 = next_invoice_id s + 1
    /\ next_detail_id s2 = next_detail_id s + Z.of_nat (Datatypes.length l).
Proof.
  intros Hd Hok. apply store_ok_spec in Hok as [Hi Hdet].
  eexists _, _, _.
  split; [apply (create_run defaults validated_data l s Hd)|].
  split; [apply delete_run|].
  cbn [invoices details next_invoice_id next_detail_id created invoice_id].
  split; [|split; [|split; reflexivity]].
  - rewrite filter_app. cbn [filter invoice_id]. rewrite Z.eqb_refl.
    cbn [negb]. rewrite app_nil_r. apply filter_all.
    intros i Hin. specialize (Hi i Hin).
    apply negb_true_iff, Z.eqb_neq. lia.
  - rewrite filter_app, new_rows_others, app_nil_r. apply filter_all.
    intros d Hin. specialize (Hdet d Hin). unfold belongs.
    apply negb_true_iff, Z.eqb_neq. lia.
Qed.



(** X11: an [update] whose data names no header field leaves the table
    of invoices exactly as it was, when identifiers are unique. *)
Theorem update_without_header (instance : Invoice) (validated_data : dict)
    (l : list detail_data) (s : Store) :
  In instance (invoices s) ->
  keys_unique s = true ->
  d_invoice_number validated_data = None ->
  d_customer_name validated_data = None ->
  d_date validated_data = None ->
  d_details validated_data = Some (VList l) ->
  exists s',
    InvoiceSerializer.update instance validated_data s = (Return instance, s')
    /\ invoices s' = invoices s.
Proof.
  intros Hin Hk Hn Hc Hdt Hd.
  apply andb_true_iff in Hk as [Hk _]. apply distinct_NoDup in Hk.
  assert (Hsame : updated instance validated_data = instance).
  { unfold updated. rewrite Hn, Hc, Hdt. now destruct instance. }
  eexists. rewrite (update_run instance validated_data l s Hd), Hsame.
  split; [reflexivity|].
  cbn [invoices].
  replace (existsb _ (invoices s)) with true.
  - rewrite <- (map_id (invoices s)) at 2. apply map_ext_in.
    intros i Hi.
    destruct (Z.eqb_spec (invoice_id i) (invoice_id instance)) as [Heq|_];
      [|reflexivity].
    symmetry. now apply (NoDup_map_same invoice_id (invoices s)).
  - symmetry. apply existsb_exists. exists instance.
    split; [exact Hin|apply Z.eqb_refl].
Qed.

(** X12: [update] of a stored invoice sends, in this order, one update
    of the header, one deletion of the invoice's line items, and one
    insertion for each submitted item; it hands out no invoice
    identifier. *)
Theorem update_statements (instance : Invoice) (validated_data : dict)
    (l : list detail_data) (s : Store) :
  In instance (invoices s) ->
  d_details validated_data = Some (VList l) ->
  exists instance' s',
    InvoiceSerializer.update instance validated_data s = (Return instance', s')
    /\ journal s'
       = journal s
         ++ UpdateInvoice (invoice_id instance)
            :: DeleteDetails (invoice_id instance)
            :: insertions (invoice_id instance)
                 (filter (belongs (invoice_id instance)) (details s'))
    /\ next_invoice_id s' = next_invoice_id s
    /\ next_detail_id s' = next_detail_id s + Z.of_nat (Datatypes.length l).
Proof.
  intros Hin Hd.
  eexists _, _. split; [apply (update_run instance validated_data l s Hd)|].
  cbn [journal details next_invoice_id next_detail_id].
  replace (existsb _ (invoices s)) with true.
  - split; [|split; reflexivity].
    rewrite filter_app, new_rows_belong, filter_none; [reflexivity|].
    intros d Hd'. apply filter_In in Hd' as [_ Hd'].
    now apply negb_true_iff in Hd'.
  - symmetry. apply existsb_exists. exists instance.
    split; [exact Hin|apply Z.eqb_refl].
Qed.

(** ** Unique invoice numbers *)

Lemma numbers_unique_spec (s : Store) :
  numbers_unique s = true <->
  forall i j, In i (invoices s) -> In j (invoices s) ->
    invoice_number i = invoice_number j -> invoice_id i = invoice_id j.
Proof.
  unfold numbers_unique. rewrite forallb_forall. split.
  - intros H i j Hi Hj Heq. specialize (H i Hi).
    rewrite forallb_forall in H. specialize (H j Hj).
    apply value_eqb_eq in Heq. rewrite Heq in H. now apply Z.eqb_eq in H.
  - intros H i Hi. apply forallb_forall. intros j Hj.
    destruct (value_eqb (invoice_number i) (invoice_number j)) eqn:E;
      [|reflexivity].
    apply value_eqb_eq in E. cbn. apply Z.eqb_eq. auto.
Qed.

Lemma validate_number_free (data : dict) (s : Store) :
  InvoiceSerializer.validate data s = (Return data, s) ->
  ~ number_taken (get (d_invoice_number data)) s.
Proof.
  rewrite validate_run, <- exists_number_free.
  destruct (negb _); [discriminate|].
  destruct (existsb _ (invoices s)); [discriminate|reflexivity].
Qed.

(** X13: when [validate] has accepted data that names an invoice
    number, [create] keeps invoice numbers unique among the stored
    invoices. *)
Theorem validated_create_keeps_numbers (defaults : Invoice)
    (validated_data : dict) (n : value) (l : list detail_data) (s : Store) :
  d_details validated_data = Some (VList l) ->
  d_invoice_number validated_data = Some n ->
  InvoiceSerializer.validate validated_data s = (Return validated_data, s) ->
  numbers_unique s = true ->
  numbers_unique (snd (InvoiceSerializer.create defaults validated_data s)) = true.
Proof.
  intros Hd Hn Hv Hu. apply validate_number_free in Hv.
  rewrite Hn in Hv. cbn [get] in Hv.
  rewrite (create_run defaults validated_data l s Hd).
  rewrite numbers_unique_spec in *. cbn [snd invoices].
  unfold created. rewrite Hn. cbn [get_or].
  intros i j Hi Hj Heq.
  apply in_app_or in Hi as [Hi|[<-|[]]], Hj as [Hj|[<-|[]]].
  - auto.
  - exfalso. apply Hv. exists i. auto.
  - exfalso. apply Hv. exists j. auto.
  - reflexivity.
Qed.

(** X14: when [validate] has accepted the data, [update] of a stored
    invoice keeps invoice numbers unique among the stored invoices,
    whether the data names a new number or none. *)
Theorem validated_update_keeps_numbers (instance : Invoice)
    (validated_data : dict) (l : list detail_data) (s : Store) :
  In instance (invoices s) ->
  d_details validated_data = Some (VList l) ->
  InvoiceSerializer.validate validated_data s = (Return validated_data, s) ->
  numbers_unique s = true ->
  numbers_unique (snd (InvoiceSerializer.update instance validated_data s)) = true.
Proof.
  intros Hin Hd Hv Hu. apply validate_number_free in Hv.
  rewrite (update_run instance validated_data l s Hd).
  replace (existsb _ (invoices s)) with true
    by (symmetry; apply existsb_exists; exists instance;
        split; [exact Hin|apply Z.eqb_refl]).
  rewrite numbers_unique_spec in *. cbn [snd invoices].
  set (f := fun i => if invoice_id i =? invoice_id instance
                     then updated instance validated_data else i).
  assert (Hf : forall i, invoice_id (f i) = invoice_id i).
  { intro i. unfold f.
    destruct (Z.eqb_spec (invoice_id i) (invoice_id instance)) as [->|_];
      reflexivity. }
  assert (Hnew : forall j, In j (invoices s) ->
            invoice_number j = invoice_number (updated instance validated_data) ->
            invoice_id j = invoice_id instance).
  { intros j Hj Heq. unfold updated in Heq. cbn [invoice_number] in Heq.
    destruct (d_invoice_number validated_data) as [n|]; cbn [get get_or] in *.
    - exfalso. apply Hv. exists j. auto.
    - now apply Hu. }
  intros i' j' Hi Hj Heq.
  apply in_map_iff in Hi as (i & <- & Hi), Hj as (j & <- & Hj).
  rewrite !Hf. unfold f in Heq.
  destruct (Z.eqb_spec (invoice_id i) (invoice_id instance)) as [Hi0|Hi0],
           (Z.eqb_spec (invoice_id j) (invoice_id instance)) as [Hj0|Hj0].
  - congruence.
  - exfalso. apply Hj0. now apply Hnew.
  - exfalso. apply Hi0. now apply Hnew.
  - now apply Hu.
Qed.

(** ** Line totals of validated items *)




(** X16: [update] with an empty list of line items leaves the invoice
    without any; with data that [validate] has accepted the invoice has
    at least one afterwards. *)
Theorem update_items_present (instance : Invoice) (validated_data : dict)
    (l : list detail_data) (s : Store) :
  d_details validated_data = Some (VList l) ->
  exists instance' s',
    InvoiceSerializer.update instance validated_data s = (Return instance', s')
    /\ (l = [] -> has_items (invoice_id instance) s' = false)
    /\ (InvoiceSerializer.validate validated_data s = (Return validated_data, s) ->
        has_items (invoice_id instance) s' = true).
Proof.
  intro Hd.
  eexists _, _. split; [apply (update_run instance validated_data l s Hd)|].
  unfold has_items. cbn [details].
  rewrite has_items_new_rows.
  - split; [now intros ->|].
    rewrite validate_run. unfold get. rewrite Hd. cbn [truthy].
    destruct l; [discriminate|reflexivity].
  - intros d Hin. apply filter_In in Hin as [_ Hin]. unfold belongs in Hin.
    now apply negb_true_iff, Z.eqb_neq in Hin.
Qed.

(** ** The further statements at sample data *)

Lemma create_keeps_consistent_witness :
  consistent (snd (InvoiceSerializer.create Sample.defaults Sample.acme_data
                     Sample.empty)) = true.
Proof.
  apply (create_keeps_consistent Sample.defaults Sample.acme_data
           [Sample.widget; Sample.gadget; Sample.widget] Sample.empty);
    reflexivity.
Defined.

Lemma update_keeps_consistent_witness :
  consistent (snd (InvoiceSerializer.update Sample.acme Cases.renumber
                     Sample.stored)) = true.
Proof.
  apply (update_keeps_consistent Sample.acme Cases.renumber [Sample.gadget]
           Sample.stored).
  - left. reflexivity.
  - reflexivity.
  - reflexivity.
Defined.

Lemma delete_keeps_consistent_witness :
  consistent (snd (InvoiceSerializer.delete Sample.acme Sample.stored)) = true.
Proof.
  apply (delete_keeps_consistent Sample.acme Sample.stored). reflexivity.
Defined.

Lemma validate_accepts_witness :
  InvoiceSerializer.validate Cases.renumber Sample.stored
  = (Return Cases.renumber, Sample.stored).
Proof.
  apply (validate_accepts Cases.renumber Sample.stored).
  split; [reflexivity|]. split.
  - intros (i & [<-|[]] & H). discriminate H.
  - split; [|reflexivity]. exists "Bob". split; reflexivity.
Defined.

Lemma missing_details_key_witness :
  InvoiceSerializer.create Sample.defaults Cases.header_only Sample.stored
  = (Raise (KeyError "details"), Sample.stored)
  /\ InvoiceSerializer.update Sample.acme Cases.header_only Sample.stored
     = (Raise (KeyError "details"), Sample.stored).
Proof.
  apply (missing_details_key Sample.defaults Sample.acme Cases.header_only
           Sample.stored).
  reflexivity.
Defined.


Lemma create_then_number_taken_witness :
  exists invoice s',
    InvoiceSerializer.create Sample.defaults Sample.acme_data Sample.empty
    = (Return invoice, s')
    /\ InvoiceSerializer.validate Sample.acme_data s'
       = (Raise (ValidationError "Invoice number must be unique."), s').
Proof.
  destruct (create_then_number_taken Sample.defaults Sample.acme_data
              [Sample.widget; Sample.gadget; Sample.widget] Sample.empty eq_refl)
    as (invoice & s' & Hrun & _ & Hre & _).
  exists invoice, s'. split; [exact Hrun|].
  apply Hre; [|reflexivity].
  vm_compute in Hrun. inversion Hrun. reflexivity.
Defined.

Lemma create_then_delete_witness :
  exists invoice s1 s2,
    InvoiceSerializer.create Sample.defaults Cases.renumber Sample.stored
    = (Return invoice, s1)
    /\ InvoiceSerializer.delete invoice s1
       = (Return InvoiceSerializer.confirmation, s2)
    /\ invoices s2 = invoices Sample.stored
    /\ details s2 = details Sample.stored.
Proof.
  destruct (create_then_delete Sample.defaults Cases.renumber [Sample.gadget]
              Sample.stored eq_refl eq_refl)
    as (invoice & s1 & s2 & Hc & Hd & Hi & Hdet & _).
  exists invoice, s1, s2. auto.
Defined.

Lemma update_without_header_witness :
  exists s',
    InvoiceSerializer.update Sample.acme Cases.items_only Sample.stored
    = (Return Sample.acme, s')
    /\ invoices s' = invoices Sample.stored.
Proof.
  apply (update_without_header Sample.acme Cases.items_only [Sample.gadget]
           Sample.stored); try reflexivity.
  left. reflexivity.
Defined.

Lemma update_statements_witness :
  exists instance' s',
    InvoiceSerializer.update Sample.acme Cases.renumber Sample.stored
    = (Return instance', s')
    /\ next_invoice_id s' = 2.
Proof.
  destruct (update_statements Sample.acme Cases.renumber [Sample.gadget]
              Sample.stored (or_introl eq_refl) eq_refl)
    as (instance' & s' & Hrun & _ & Hnext & _).
  exists instance', s'. auto.
Defined.

Lemma validated_create_keeps_numbers_witness :
  numbers_unique
    (snd (InvoiceSerializer.create Sample.defaults Cases.renumber Sample.stored))
  = true.
Proof.
  apply (validated_create_keeps_numbers Sample.defaults Cases.renumber
           (VStr "INV-002") [Sample.gadget] Sample.stored);
    reflexivity.
Defined.

Lemma validated_update_keeps_numbers_witness :
  numbers_unique
    (snd (InvoiceSerializer.update Sample.acme Cases.renumber Sample.stored))
  = true.
Proof.
  apply (validated_update_keeps_numbers Sample.acme Cases.renumber
           [Sample.gadget] Sample.stored); try reflexivity.
  left. reflexivity.
Defined.


Lemma update_items_present_witness :
  exists instance' s',
    InvoiceSerializer.update Sample.acme Cases.emptied Sample.stored
    = (Return instance', s')
    /\ has_items (invoice_id Sample.acme) s' = false.
Proof.
  destruct (update_items_present Sample.acme Cases.emptied [] Sample.stored
              eq_refl) as (instance' & s' & Hrun & Hnone & _).
  exists instance', s'. split; [exact Hrun|exact (Hnone eq_refl)].
Defined.

